(** * Google Vision sensor: the reading extracted from the OCR annotations

    A shallow embedding of [Gvision.process_image] of
    [custom_components/google_vision/sensor.py] and of the constructor
    [Gvision.__init__] that prepares the fields it reads.

    Conventions of the embedding.
    - A Python [str] is a list of Unicode code points.  The three facts of
      the Unicode character database that the code depends on
      ([str.isnumeric], the decimal value that [float] reads, [str.lower])
      are an interface, [UnicodeData]; [latin1] implements it for the code
      points below U+0100 and is used to run the code on concrete texts.
    - A text annotation is represented by its [description]; annotation
      objects are truthy (each carries its bounding polygon), so the tests
      [and prev_obj] and [if keyword_obj] are tests against [None].
    - A Python [float] is represented by the rational number it stands
      for: [float(value) / (10.0 ** k)] is the exact quotient.  Rounding and
      the range of binary64 (the [OverflowError] of [10.0 ** k] from
      [k = 309] on) are outside the model.
    - An exception ends the call; the outcome says which one was raised.
    - Calls to [_LOGGER] have no effect on the result and are left out. *)

From Stdlib Require Import ZArith QArith Qpower List Bool Lia.
From Stdlib Require Import String Ascii NArith.
Import ListNotations.

Local Open Scope Z_scope.

(** ** Python strings *)

Definition codepoint : Type := N.
Definition str : Type := list codepoint.

(** A literal of the source, one code point per character. *)
Definition lit (s : string) : str := map N_of_ascii (list_ascii_of_string s).

Definition is_ascii_digit (c : codepoint) : bool :=
  ((48 <=? c) && (c <=? 57))%N.

Class UnicodeData : Type := {
  (** the character has the property Numeric_Type (Decimal, Digit or
      Numeric): the test [str.isnumeric] makes on each character *)
  ch_isnumeric : codepoint -> bool;
  (** the value of a decimal digit (a character of category Nd), which is
      what [float] accepts in place of an ASCII digit *)
  ch_todecimal : codepoint -> option Z;
  (** [str.lower] *)
  str_lower : str -> str;
  todecimal_isnumeric :
    forall c d, ch_todecimal c = Some d -> ch_isnumeric c = true;
  todecimal_ascii :
    forall c, is_ascii_digit c = true ->
              ch_todecimal c = Some (Z.of_N c - 48)
}.

Inductive exn : Type :=
| TypeError
| ValueError.

Inductive outcome (A : Type) : Type :=
| Return (a : A)
| Raise (e : exn).
Arguments Return {A} a.
Arguments Raise {A} e.

Definition str_eqb (a b : str) : bool :=
  if list_eq_dec N.eq_dec a b then true else false.

Fixpoint is_prefix (p s : str) : bool :=
  match p, s with
  | [], _ => true
  | _ :: _, [] => false
  | a :: p', b :: s' => (a =? b)%N && is_prefix p' s'
  end.

(** [len(s)] *)
Definition len {A : Type} (s : list A) : Z := Z.of_nat (List.length s).

(** The truth value of a string: false when it is empty. *)
Definition truthy (s : str) : bool :=
  match s with
  | [] => false
  | _ :: _ => true
  end.

(** [re.sub('[^0-9]', '', s)] *)
Definition re_sub_non_digits (s : str) : str := filter is_ascii_digit s.

Section Python.
Context {U : UnicodeData}.

(** [s.isnumeric()] *)
Definition isnumeric (s : str) : bool :=
  match s with
  | [] => false
  | _ :: _ => forallb ch_isnumeric s
  end.

Fixpoint decimal_value (acc : Z) (s : str) : option Z :=
  match s with
  | [] => Some acc
  | c :: s' =>
      match ch_todecimal c with
      | Some d => decimal_value (10 * acc + d) s'
      | None => None
      end
  end.

(** [float(s)] on the strings that reach it here, which have passed
    [isnumeric]: such a string has no sign, point, exponent, blank or
    underscore, so it converts exactly when every character is a decimal
    digit, to the integer those digits write. *)
Definition py_float (s : str) : outcome Z :=
  match s with
  | [] => Raise ValueError
  | _ :: _ =>
      match decimal_value 0 s with
      | Some n => Return n
      | None => Raise ValueError
      end
  end.

(** [s.startswith(prefix)]; a prefix that is [None] is a [TypeError]. *)
Definition startswith (s : str) (prefix : option str) : outcome bool :=
  match prefix with
  | None => Raise TypeError
  | Some p => Return (is_prefix p s)
  end.

(** [x / (10.0 ** k)] *)
Definition div_pow10 (x : Z) (k : Z) : Q := (inject_Z x / ((10 # 1) ^ k))%Q.

(** ** The sensor *)

Record Gvision : Type := {
  _keyword : option str;
  _keyword_pos : option str;
  _expected_digits : Z;
  _decimals : Z;
  _state : option Q;
  _attr_native_value : option Q;
  _last_detection : option string;
  _attr_last_detection : option string
}.

(** The part of [__init__] that prepares the fields [process_image] uses. *)
Definition init (keyword keyword_pos : option str)
    (expected_digits decimals : Z) : Gvision :=
  {| _keyword :=
       match keyword with
       | Some k => if truthy k then Some (str_lower k) else None
       | None => None
       end;
     _keyword_pos :=
       match keyword_pos with
       | Some p => if truthy p then Some p else None
       | None => None
       end;
     _expected_digits := expected_digits;
     _decimals := decimals;
     _state := None;
     _attr_native_value := None;
     _last_detection := None;
     _attr_last_detection := None |}.

(** [self._keyword_pos == s] *)
Definition pos_is (self : Gvision) (s : string) : bool :=
  match _keyword_pos self with
  | Some p => str_eqb p (lit s)
  | None => false
  end.

(** The local variables of [process_image] that live across iterations. *)
Record locals : Type := {
  index : option Q;
  keyword_obj : option str;
  prev_obj : option str
}.

Definition locals0 : locals :=
  {| index := None; keyword_obj := None; prev_obj := None |}.

Definition set_index (l : locals) (v : Q) : locals :=
  {| index := Some v; keyword_obj := keyword_obj l; prev_obj := prev_obj l |}.

Definition set_keyword_obj (l : locals) (obj : str) : locals :=
  {| index := index l; keyword_obj := Some obj; prev_obj := prev_obj l |}.

Definition set_prev_obj (l : locals) (obj : str) : locals :=
  {| index := index l; keyword_obj := keyword_obj l; prev_obj := Some obj |}.

(** How one iteration of the [for] loop ends. *)
Inductive flow : Type :=
| Break (l : locals)
| Continue (l : locals)
| Throw (e : exn).

(** The body of [for obj in objects], [obj] being [obj.description]. *)
Definition body (self : Gvision) (l : locals) (obj : str) : flow :=
  if pos_is self "after" then
    match startswith (str_lower obj) (_keyword self) with
    | Raise e => Throw e
    | Return sw =>
        match (if sw then prev_obj l else None) with
        | Some prev =>
            let value := re_sub_non_digits prev in
            if isnumeric value then
              if len value =? _expected_digits self then
                match py_float value with
                | Raise e => Throw e
                | Return f => Break (set_index l (div_pow10 f (_decimals self)))
                end
              else if (0 <? _decimals self)
                      && (len value =? _expected_digits self - 1) then
                match py_float value with
                | Raise e => Throw e
                | Return f =>
                    Break (set_index l (div_pow10 f (_decimals self - 1)))
                end
              else Continue (set_prev_obj l obj)
            else Continue (set_prev_obj l obj)
        | None => Continue (set_prev_obj l obj)
        end
    end
  else if pos_is self "before" then
    let refresh : flow :=
      match startswith (str_lower obj) (_keyword self) with
      | Raise e => Throw e
      | Return sw =>
          Continue (set_prev_obj (if sw then set_keyword_obj l obj else l) obj)
      end in
    match keyword_obj l with
    | Some _ =>
        let value := re_sub_non_digits obj in
        if isnumeric value then
          if len value =? _expected_digits self then
            match py_float value with
            | Raise e => Throw e
            | Return f => Break (set_index l (div_pow10 f (_decimals self)))
            end
          else if (0 <? _decimals self)
                  && (len value =? _expected_digits self - 1) then
            match py_float value with
            | Raise e => Throw e
            | Return f =>
                Break (set_index l (div_pow10 f (_decimals self - 1)))
            end
          else refresh
        else refresh
    | None => refresh
    end
  else
    let value := obj in
    if isnumeric value then
      if len value =? _expected_digits self then
        match py_float value with
        | Raise e => Throw e
        | Return f => Break (set_index l (div_pow10 f (_decimals self)))
        end
      else if (0 <? _decimals self)
              && (len value =? _expected_digits self - 1) then
        match py_float value with
        | Raise e => Throw e
        | Return f => Break (set_index l (div_pow10 f (_decimals self - 1)))
        end
      else Continue (set_prev_obj l obj)
    else Continue (set_prev_obj l obj).

(** The [for] loop, from the locals [l] over the annotations left. *)
Fixpoint loop (self : Gvision) (l : locals) (objects : list str)
  : outcome locals :=
  match objects with
  | [] => Return l
  | obj :: rest =>
      match body self l obj with
      | Break l' => Return l'
      | Continue l' => loop self l' rest
      | Throw e => Raise e
      end
  end.

(** The scan, lines 194 to 237 of [process_image]: the value of [index]
    when the loop is left.  This is the [extract] of the specification. *)
Definition extract (self : Gvision) (objects : list str)
  : outcome (option Q) :=
  match loop self locals0 objects with
  | Return l => Return (index l)
  | Raise e => Raise e
  end.

(** [not index] *)
Definition not_index (i : option Q) : bool :=
  match i with
  | None => true
  | Some v => Qeq_bool v 0
  end.

Definition clear_state (self : Gvision) : Gvision :=
  {| _keyword := _keyword self;
     _keyword_pos := _keyword_pos self;
     _expected_digits := _expected_digits self;
     _decimals := _decimals self;
     _state := None;
     _attr_native_value := _attr_native_value self;
     _last_detection := _last_detection self;
     _attr_last_detection := _attr_last_detection self |}.

Definition publish (self : Gvision) (i : option Q) (now : string) : Gvision :=
  {| _keyword := _keyword self;
     _keyword_pos := _keyword_pos self;
     _expected_digits := _expected_digits self;
     _decimals := _decimals self;
     _state := i;
     _attr_native_value := i;
     _last_detection := Some now;
     _attr_last_detection := Some now |}.

(** [process_image(self, image)]: [objects] are the descriptions of
    [response.text_annotations] for the image and [now] is the formatted
    [dt_util.now()].  The result is the sensor after the call and the
    exception that ended it, if one did. *)
Definition process_image (self : Gvision) (objects : list str) (now : string)
  : Gvision * option exn :=
  let self := clear_state self in
  if negb (0 <? len objects) then (self, None)
  else
    match extract self objects with
    | Raise e => (self, Some e)
    | Return i =>
        if not_index i then (self, None)
        else (publish self i now, None)
    end.

(** ** The rule of the specification

    A candidate is numeric when it is not empty and made of decimal digits
    only; [integer d] is the number it writes.  An exact-length candidate
    is divided by [10 ^ decimals], a candidate one digit short by
    [10 ^ (decimals - 1)], provided [decimals > 0]. *)

Definition integer (d : str) : option Z :=
  match d with
  | [] => None
  | _ :: _ => decimal_value 0 d
  end.

Definition validate (self : Gvision) (d : str) : option Q :=
  match integer d with
  | Some n =>
      if len d =? _expected_digits self
      then Some (div_pow10 n (_decimals self))
      else if (0 <? _decimals self) && (len d =? _expected_digits self - 1)
      then Some (div_pow10 n (_decimals self - 1))
      else None
  | None => None
  end.

(** The token starts, case apart, with the keyword. *)
Definition kw_prefixed (kw obj : str) : bool := is_prefix kw (str_lower obj).

(** The exponent the code would divide by, for a text that passes the tests
    made before [float] is called. *)
Definition gate (self : Gvision) (s : str) : option Z :=
  if isnumeric s then
    if len s =? _expected_digits self then Some (_decimals self)
    else if (0 <? _decimals self) && (len s =? _expected_digits self - 1)
    then Some (_decimals self - 1)
    else None
  else None.

(** The text passes the tests made before [float] is called. *)
Definition passes (self : Gvision) (obj : str) : bool :=
  match gate self obj with
  | Some _ => true
  | None => false
  end.


(** After mode: position [i] of the annotations holds a token whose stripped
    text validates to [v], and position [i + 1] a token that starts with the
    keyword. *)
Definition after_hit (self : Gvision) (kw : str)
    (objs : list str) (i : nat) (v : Q) : Prop :=
  exists prev cur,
    nth_error objs i = Some prev /\
    nth_error objs (S i) = Some cur /\
    kw_prefixed kw cur = true /\
    validate self (re_sub_non_digits prev) = Some v.


(** Before mode: position [i] holds a token whose stripped text validates
    to [v], and some earlier position holds a token that starts with the
    keyword. *)
Definition before_hit (self : Gvision) (kw : str)
    (objs : list str) (i : nat) (v : Q) : Prop :=
  exists t,
    nth_error objs i = Some t /\
    validate self (re_sub_non_digits t) = Some v /\
    exists k kt, (k < i)%nat /\ nth_error objs k = Some kt /\
                 kw_prefixed kw kt = true.


(** The locals at the end of a Before iteration that goes on. *)
Definition refreshed (kw : str) (l : locals) (obj : str) : locals :=
  set_prev_obj (if kw_prefixed kw obj then set_keyword_obj l obj else l) obj.

(** What the loop leaves in [index], or the exception. *)
Definition result_of (o : outcome locals) : outcome (option Q) :=
  match o with
  | Return l => Return (index l)
  | Raise e => Raise e
  end.

(** The number a string of ASCII digits writes. *)
Definition ascii_value (s : str) (acc : Z) : Z :=
  fold_left (fun a c => 10 * a + (Z.of_N c - 48)) s acc.

End Python.

(** ** Restoring, reporting and updating

    [ATTR_LAST_DETECTION] is defined in [const.py], which is not among the
    sources, and [STATE_UNAVAILABLE] in [homeassistant.const]: the
    definitions that use them take them as parameters.  A dict is the list
    of its items.  The stored state and the stored sensor data are objects
    that are truthy, so [not last_state] is the test against [None]. *)

(** What [async_get_last_state] returns: the fields read here. *)
Record State : Type := {
  State_state : string;
  State_attributes : list (string * string)
}.

(** What [async_get_last_sensor_data] returns: the field read here. *)
Record SensorExtraStoredData : Type := {
  native_value : option Q
}.

(** [d[key]], or [None] when [key not in d]. *)
Fixpoint dict_get (key : string) (d : list (string * string))
  : option string :=
  match d with
  | [] => None
  | (k, v) :: d' => if String.eqb k key then Some v else dict_get key d'
  end.

Definition restore_value (self : Gvision) (v : option Q) : Gvision :=
  {| _keyword := _keyword self;
     _keyword_pos := _keyword_pos self;
     _expected_digits := _expected_digits self;
     _decimals := _decimals self;
     _state := v;
     _attr_native_value := v;
     _last_detection := _last_detection self;
     _attr_last_detection := _attr_last_detection self |}.

Definition restore_detection (self : Gvision) (d : string) : Gvision :=
  {| _keyword := _keyword self;
     _keyword_pos := _keyword_pos self;
     _expected_digits := _expected_digits self;
     _decimals := _decimals self;
     _state := _state self;
     _attr_native_value := _attr_native_value self;
     _last_detection := Some d;
     _attr_last_detection := Some d |}.

(** [async_added_to_hass(self)], given what the two [async_get_last_...]
    calls return. *)
Definition async_added_to_hass
    (ATTR_LAST_DETECTION STATE_UNAVAILABLE : string) (self : Gvision)
    (last_state : option State)
    (last_sensor_state : option SensorExtraStoredData) : Gvision :=
  match last_state, last_sensor_state with
  | Some ls, Some lss =>
      if String.eqb (State_state ls) STATE_UNAVAILABLE then self
      else
        let self := restore_value self (native_value lss) in
        match dict_get ATTR_LAST_DETECTION (State_attributes ls) with
        | Some d => restore_detection self d
        | None => self
        end
  | _, _ => self
  end.

(** The property [state]. *)
Definition state (self : Gvision) : option Q := _state self.

(** The property [extra_state_attributes]; the empty string is falsy. *)
Definition extra_state_attributes (ATTR_LAST_DETECTION : string)
    (self : Gvision) : list (string * string) :=
  match _last_detection self with
  | Some (String _ _ as d) => [(ATTR_LAST_DETECTION, d)]
  | _ => []
  end.

(** [async_update(self)]: [got] is what [camera.async_get_image] gives,
    [None] when it raises [HomeAssistantError], and [detect] gives the
    descriptions of the text annotations of an image content. *)
Definition async_update {U : UnicodeData} {Image : Type}
    (self : Gvision) (got : option Image) (detect : Image -> list str)
    (now : string) : Gvision * option exn :=
  match got with
  | None => (self, None)
  | Some image => process_image self (detect image) now
  end.

(** ** Unicode below U+0100

    The numeric characters of Latin-1 are the ASCII digits, the superscripts
    U+00B2, U+00B3 and U+00B9 and the fractions U+00BC, U+00BD and U+00BE;
    only the ASCII digits are decimal digits.  Lowercasing moves A-Z and
    U+00C0-U+00DE (the multiplication sign U+00D7 apart) up by 32.  On a text
    with a code point from U+0100 on, [latin1] is not Unicode. *)

Definition latin1_isnumeric (c : codepoint) : bool :=
  is_ascii_digit c
  || existsb (N.eqb c) [178; 179; 185; 188; 189; 190]%N.

Definition latin1_todecimal (c : codepoint) : option Z :=
  if is_ascii_digit c then Some (Z.of_N c - 48) else None.

Definition latin1_lower_ch (c : codepoint) : codepoint :=
  if ((65 <=? c) && (c <=? 90)
      || (192 <=? c) && (c <=? 222) && negb (c =? 215))%N
  then (c + 32)%N else c.

Definition latin1 : UnicodeData.
Proof.
  refine {| ch_isnumeric := latin1_isnumeric;
            ch_todecimal := latin1_todecimal;
            str_lower := map latin1_lower_ch |}.
  - intros c d. unfold latin1_todecimal, latin1_isnumeric.
    destruct (is_ascii_digit c); [reflexivity | discriminate].
  - intros c H. unfold latin1_todecimal. rewrite H. reflexivity.
Defined.

(** Sensors and a character for the examples. *)

Definition kwh_after : Gvision :=
  @init latin1 (Some (lit "kWh")) (Some (lit "after")) 5 0.

Definition meter_before : Gvision :=
  @init latin1 (Some (lit "Meter:")) (Some (lit "before")) 5 2.

(** A sensor that has found 12345 at the given time. *)
Definition kwh_found : Gvision :=
  fst (@process_image latin1 kwh_after
         [lit "Total"; lit "12345"; lit "kWh"] "2024-01-01 00:00:00").

(** The fraction one half, U+00BD. *)
Definition one_half : codepoint := 189%N.

(** * Properties *)

Section Strings.
Context {U : UnicodeData}.

Lemma str_eqb_eq (a b : str) : str_eqb a b = true <-> a = b.
Proof.
  unfold str_eqb. destruct (list_eq_dec N.eq_dec a b); split;
    intros; congruence.
Qed.

Lemma re_sub_digits (s : str) :
  forallb is_ascii_digit (re_sub_non_digits s) = true.
Proof.
  unfold re_sub_non_digits. apply forallb_forall. intros c Hc.
  apply filter_In in Hc. apply Hc.
Qed.

Lemma ascii_digits_isnumeric (s : str) :
  forallb is_ascii_digit s = true -> isnumeric s = truthy s.
Proof.
  intros H. destruct s as [| c s]; [reflexivity |].
  unfold isnumeric, truthy. apply forallb_forall. intros x Hx.
  rewrite forallb_forall in H. specialize (H x Hx).
  apply todecimal_ascii in H. eapply todecimal_isnumeric; eassumption.
Qed.

Lemma decimal_value_ascii (s : str) :
  forall acc, forallb is_ascii_digit s = true ->
              decimal_value acc s = Some (ascii_value s acc).
Proof.
  induction s as [| c s IH]; intros acc H; [reflexivity |].
  simpl in *. apply andb_true_iff in H. destruct H as [Hc Hs].
  rewrite (todecimal_ascii c Hc). apply IH. exact Hs.
Qed.

Lemma integer_ascii (s : str) :
  forallb is_ascii_digit s = true -> truthy s = true ->
  integer s = Some (ascii_value s 0).
Proof.
  intros H Ht. destruct s as [| c s]; [discriminate |].
  unfold integer. apply decimal_value_ascii. exact H.
Qed.

Lemma py_float_integer (s : str) :
  py_float s = match integer s with
               | Some n => Return n
               | None => Raise ValueError
               end.
Proof. destruct s; reflexivity. Qed.

Lemma integer_ascii_digits (s : str) :
  forallb is_ascii_digit s = true -> truthy s = true ->
  exists n, integer s = Some n.
Proof. intros H Ht. eexists. apply integer_ascii; assumption. Qed.

Lemma integer_stripped_empty (s : str) :
  truthy s = false -> integer s = None.
Proof. destruct s; [reflexivity | discriminate]. Qed.

Lemma integer_isnumeric (s : str) (n : Z) :
  integer s = Some n -> isnumeric s = true.
Proof.
  destruct s as [| c s]; [discriminate |].
  unfold integer, isnumeric. generalize 0. generalize (c :: s). clear.
  induction l as [| x l IH]; intros acc H; [reflexivity |].
  simpl in *. destruct (ch_todecimal x) eqn:E; [| discriminate].
  rewrite (todecimal_isnumeric _ _ E). simpl. eapply IH. eassumption.
Qed.

End Strings.

(** ** One iteration, mode by mode *)

Section Iteration.
Context {U : UnicodeData}.
Variable self : Gvision.

Lemma validate_gate (d : str) :
  validate self d =
    match integer d, gate self d with
    | Some n, Some k => Some (div_pow10 n k)
    | _, _ => None
    end.
Proof.
  unfold validate, gate. destruct (integer d) as [n |] eqn:E.
  - rewrite (integer_isnumeric _ _ E).
    destruct (len d =? _expected_digits self); [reflexivity |].
    destruct ((0 <? _decimals self) && (len d =? _expected_digits self - 1));
      reflexivity.
  - reflexivity.
Qed.

Ltac stripped_candidate s :=
  rewrite (ascii_digits_isnumeric s) by apply re_sub_digits;
  unfold validate; rewrite (py_float_integer s);
  let T := fresh "T" in
  destruct (truthy s) eqn:T;
  [ let n := fresh "n" in let Hn := fresh "Hn" in
    destruct (integer_ascii_digits s (re_sub_digits _) T) as [n Hn];
    rewrite Hn;
    destruct (len s =? _expected_digits self); [reflexivity |];
    destruct ((0 <? _decimals self) && (len s =? _expected_digits self - 1));
    reflexivity
  | rewrite (integer_stripped_empty s T); reflexivity ].

Lemma body_after (kw : str) (l : locals) (obj : str) :
  pos_is self "after" = true ->
  _keyword self = Some kw ->
  body self l obj =
    match (if kw_prefixed kw obj then prev_obj l else None) with
    | Some prev =>
        match validate self (re_sub_non_digits prev) with
        | Some v => Break (set_index l v)
        | None => Continue (set_prev_obj l obj)
        end
    | None => Continue (set_prev_obj l obj)
    end.
Proof.
  intros Hpos Hkw. unfold body, kw_prefixed. rewrite Hpos, Hkw. simpl.
  destruct (if is_prefix kw (str_lower obj) then prev_obj l else None)
    as [prev |]; [| reflexivity].
  stripped_candidate (re_sub_non_digits prev).
Qed.

Lemma body_before (kw : str) (l : locals) (obj : str) :
  pos_is self "after" = false ->
  pos_is self "before" = true ->
  _keyword self = Some kw ->
  let refresh :=
    Continue (set_prev_obj
                (if kw_prefixed kw obj then set_keyword_obj l obj else l)
                obj) in
  body self l obj =
    match keyword_obj l with
    | Some _ =>
        match validate self (re_sub_non_digits obj) with
        | Some v => Break (set_index l v)
        | None => refresh
        end
    | None => refresh
    end.
Proof.
  intros Ha Hb Hkw. unfold body, kw_prefixed. rewrite Ha, Hb, Hkw. simpl.
  destruct (keyword_obj l); [| reflexivity].
  stripped_candidate (re_sub_non_digits obj).
Qed.

Lemma body_none (l : locals) (obj : str) :
  pos_is self "after" = false ->
  pos_is self "before" = false ->
  body self l obj =
    match gate self obj with
    | Some k =>
        match integer obj with
        | Some n => Break (set_index l (div_pow10 n k))
        | None => Throw ValueError
        end
    | None => Continue (set_prev_obj l obj)
    end.
Proof.
  intros Ha Hb. unfold body, gate. rewrite Ha, Hb.
  rewrite (py_float_integer obj).
  destruct (isnumeric obj); [| reflexivity].
  destruct (len obj =? _expected_digits self).
  - destruct (integer obj); reflexivity.
  - destruct ((0 <? _decimals self) && (len obj =? _expected_digits self - 1));
      [destruct (integer obj) |]; reflexivity.
Qed.

End Iteration.

(** ** The digit rule *)

Section DigitRule.
Context {U : UnicodeData}.




End DigitRule.

(** ** After mode *)

Section After.
Context {U : UnicodeData}.
Variables (self : Gvision) (kw : str).
Hypothesis Hafter : pos_is self "after" = true.
Hypothesis Hkw : _keyword self = Some kw.

Lemma after_hit_tail (p : str) (objs : list str) (i : nat) (v : Q) :
  after_hit self kw (p :: objs) (S i) v <-> after_hit self kw objs i v.
Proof. unfold after_hit. simpl. tauto. Qed.

Lemma loop_after_from (objs : list str) :
  forall (p : str) (l : locals),
    index l = None -> prev_obj l = Some p ->
    exists l', loop self l objs = Return l' /\
      match index l' with
      | Some v =>
          exists i, after_hit self kw (p :: objs) i v /\
            forall j v', (j < i)%nat -> ~ after_hit self kw (p :: objs) j v'
      | None => forall i v, ~ after_hit self kw (p :: objs) i v
      end.
Proof.
  induction objs as [| obj rest IH]; intros p l Hi Hp.
  - exists l. split; [reflexivity |]. rewrite Hi.
    intros i v (prev & cur & _ & H & _). destruct i; discriminate.
  - simpl. rewrite (body_after self kw) by assumption. rewrite Hp.
    destruct (kw_prefixed kw obj) eqn:Ek;
      [destruct (validate self (re_sub_non_digits p)) as [v |] eqn:Ev |].
    + exists (set_index l v). split; [reflexivity |]. simpl.
      exists 0%nat. split; [| intros; lia].
      exists p, obj. repeat split; assumption.
    + destruct (IH obj (set_prev_obj l obj) Hi eq_refl) as (l' & Hl & Hspec).
      exists l'. split; [exact Hl |].
      assert (H0 : forall v', ~ after_hit self kw (p :: obj :: rest) 0 v').
      { intros v' (prev & cur & Hprev & _ & _ & Hv).
        simpl in Hprev. injection Hprev as <-. congruence. }
      destruct (index l') as [v |].
      * destruct Hspec as (i & Hhit & Hmin). exists (S i).
        split; [apply after_hit_tail; exact Hhit |].
        intros [| j] v' Hj; [apply H0 |].
        rewrite after_hit_tail. apply Hmin. lia.
      * intros [| i] v; [apply H0 |]. rewrite after_hit_tail. apply Hspec.
    + destruct (IH obj (set_prev_obj l obj) Hi eq_refl) as (l' & Hl & Hspec).
      exists l'. split; [exact Hl |].
      assert (H0 : forall v', ~ after_hit self kw (p :: obj :: rest) 0 v').
      { intros v' (prev & cur & _ & Hcur & Hk & _).
        simpl in Hcur. injection Hcur as <-. congruence. }
      destruct (index l') as [v |].
      * destruct Hspec as (i & Hhit & Hmin). exists (S i).
        split; [apply after_hit_tail; exact Hhit |].
        intros [| j] v' Hj; [apply H0 |].
        rewrite after_hit_tail. apply Hmin. lia.
      * intros [| i] v; [apply H0 |]. rewrite after_hit_tail. apply Hspec.
Qed.

Lemma body_after_first (l : locals) (obj : str) :
  prev_obj l = None -> body self l obj = Continue (set_prev_obj l obj).
Proof.
  intros Hp. rewrite (body_after self kw) by assumption. rewrite Hp.
  destruct (kw_prefixed kw obj); reflexivity.
Qed.

End After.



(** ** Before mode *)

Section Before.
Context {U : UnicodeData}.
Variables (self : Gvision) (kw : str).
Hypothesis Hafter : pos_is self "after" = false.
Hypothesis Hbefore : pos_is self "before" = true.
Hypothesis Hkw : _keyword self = Some kw.

Lemma index_refreshed (l : locals) (obj : str) :
  index (refreshed kw l obj) = index l.
Proof. unfold refreshed. destruct (kw_prefixed kw obj); reflexivity. Qed.

Lemma keyword_obj_refreshed (l : locals) (obj : str) :
  keyword_obj (refreshed kw l obj) =
    if kw_prefixed kw obj then Some obj else keyword_obj l.
Proof. unfold refreshed. destruct (kw_prefixed kw obj); reflexivity. Qed.

Lemma body_before_unset (l : locals) (obj : str) :
  keyword_obj l = None -> body self l obj = Continue (refreshed kw l obj).
Proof.
  intros H. rewrite (body_before self kw) by assumption.
  rewrite H. reflexivity.
Qed.

Lemma body_before_set (l : locals) (obj a : str) :
  keyword_obj l = Some a ->
  body self l obj =
    match validate self (re_sub_non_digits obj) with
    | Some v => Break (set_index l v)
    | None => Continue (refreshed kw l obj)
    end.
Proof.
  intros H. rewrite (body_before self kw) by assumption.
  rewrite H. reflexivity.
Qed.

(** Once the anchor is set, the first token that validates is the result. *)
Lemma loop_before_set (objs : list str) :
  forall (l : locals) (a : str),
    index l = None -> keyword_obj l = Some a ->
    exists l', loop self l objs = Return l' /\
      match index l' with
      | Some v =>
          exists i t, nth_error objs i = Some t /\
            validate self (re_sub_non_digits t) = Some v /\
            forall j t', (j < i)%nat -> nth_error objs j = Some t' ->
                         validate self (re_sub_non_digits t') = None
      | None =>
          forall i t, nth_error objs i = Some t ->
                      validate self (re_sub_non_digits t) = None
      end.
Proof.
  induction objs as [| obj rest IH]; intros l a Hi Ha.
  - exists l. split; [reflexivity |]. rewrite Hi.
    intros [| i] t H; discriminate.
  - simpl. rewrite (body_before_set l obj a Ha).
    destruct (validate self (re_sub_non_digits obj)) as [v |] eqn:Ev.
    + exists (set_index l v). split; [reflexivity |]. simpl.
      exists 0%nat, obj. repeat split; try assumption. intros; lia.
    + assert (Ha' : exists a', keyword_obj (refreshed kw l obj) = Some a').
      { rewrite keyword_obj_refreshed, Ha.
        destruct (kw_prefixed kw obj); eauto. }
      destruct Ha' as [a' Ha'].
      destruct (IH (refreshed kw l obj) a') as (l' & Hl & Hs);
        [rewrite index_refreshed; exact Hi | exact Ha' |].
      exists l'. split; [exact Hl |].
      destruct (index l') as [v |].
      * destruct Hs as (i & t & Ht & Hv & Hmin).
        exists (S i), t. repeat split; try assumption.
        intros [| j] t' Hj Ht'; simpl in Ht'.
        -- injection Ht' as <-. exact Ev.
        -- apply (Hmin j); [lia | exact Ht'].
      * intros [| i] t Ht; simpl in Ht.
        -- injection Ht as <-. exact Ev.
        -- apply (Hs i). exact Ht.
Qed.

Lemma before_hit_zero (objs : list str) (v : Q) :
  ~ before_hit self kw objs 0 v.
Proof. intros (t & _ & _ & k & kt & Hk & _). lia. Qed.

Lemma before_hit_after_keyword (obj : str) (rest : list str) (i : nat) (v : Q) :
  kw_prefixed kw obj = true ->
  before_hit self kw (obj :: rest) (S i) v <->
  exists t, nth_error rest i = Some t /\
            validate self (re_sub_non_digits t) = Some v.
Proof.
  intros Hk. unfold before_hit. simpl. split.
  - intros (t & Ht & Hv & _). eauto.
  - intros (t & Ht & Hv). exists t. repeat split; try assumption.
    exists 0%nat, obj. repeat split; [lia | assumption].
Qed.

Lemma before_hit_skip (obj : str) (rest : list str) (i : nat) (v : Q) :
  kw_prefixed kw obj = false ->
  before_hit self kw (obj :: rest) (S i) v <-> before_hit self kw rest i v.
Proof.
  intros Hk. unfold before_hit. simpl. split.
  - intros (t & Ht & Hv & k & kt & Hlt & Hkt & Hp).
    exists t. repeat split; try assumption.
    destruct k as [| k]; simpl in Hkt.
    + injection Hkt as <-. congruence.
    + exists k, kt. repeat split; [lia | assumption | assumption].
  - intros (t & Ht & Hv & k & kt & Hlt & Hkt & Hp).
    exists t. repeat split; try assumption.
    exists (S k), kt. repeat split; [lia | assumption | assumption].
Qed.

(** From the start of the scan: the first token after a keyword-prefixed
    token that validates is the result. *)
Lemma loop_before_unset (objs : list str) :
  forall (l : locals),
    index l = None -> keyword_obj l = None ->
    exists l', loop self l objs = Return l' /\
      match index l' with
      | Some v =>
          exists i, before_hit self kw objs i v /\
            forall j v', (j < i)%nat -> ~ before_hit self kw objs j v'
      | None => forall i v, ~ before_hit self kw objs i v
      end.
Proof.
  induction objs as [| obj rest IH]; intros l Hi Ha.
  - exists l. split; [reflexivity |]. rewrite Hi.
    intros [| i] v (t & H & _); discriminate.
  - simpl. rewrite (body_before_unset l obj Ha).
    destruct (kw_prefixed kw obj) eqn:Ek.
    + destruct (loop_before_set rest (refreshed kw l obj) obj)
        as (l' & Hl & Hs);
        [ rewrite index_refreshed; exact Hi
        | rewrite keyword_obj_refreshed, Ek; reflexivity |].
      exists l'. split; [exact Hl |].
      destruct (index l') as [v |].
      * destruct Hs as (i & t & Ht & Hv & Hmin). exists (S i). split.
        -- apply before_hit_after_keyword; eauto.
        -- intros [| j] v' Hj Hhit; [exact (before_hit_zero _ _ Hhit) |].
           apply before_hit_after_keyword in Hhit; [| exact Ek].
           destruct Hhit as (t' & Ht' & Hv').
           rewrite (Hmin j t') in Hv'; [discriminate | lia | exact Ht'].
      * intros [| i] v Hhit; [exact (before_hit_zero _ _ Hhit) |].
        apply before_hit_after_keyword in Hhit; [| exact Ek].
        destruct Hhit as (t' & Ht' & Hv').
        rewrite (Hs i t' Ht') in Hv'. discriminate.
    + destruct (IH (refreshed kw l obj)) as (l' & Hl & Hs);
        [ rewrite index_refreshed; exact Hi
        | rewrite keyword_obj_refreshed, Ek; exact Ha |].
      exists l'. split; [exact Hl |].
      destruct (index l') as [v |].
      * destruct Hs as (i & Hhit & Hmin). exists (S i). split.
        -- apply before_hit_skip; assumption.
        -- intros [| j] v' Hj Hh; [exact (before_hit_zero _ _ Hh) |].
           apply before_hit_skip in Hh; [| exact Ek].
           apply (Hmin j v'); [lia | exact Hh].
      * intros [| i] v Hh; [exact (before_hit_zero _ _ Hh) |].
        apply before_hit_skip in Hh; [| exact Ek]. apply (Hs i v Hh).
Qed.


End Before.


(** ** No keyword position *)

Section NoKeyword.
Context {U : UnicodeData}.
Variable self : Gvision.
Hypothesis Hafter : pos_is self "after" = false.
Hypothesis Hbefore : pos_is self "before" = false.

Lemma loop_none (objs : list str) :
  forall l : locals,
    result_of (loop self l objs) =
      match find (passes self) objs with
      | Some obj =>
          match validate self obj with
          | Some v => Return (Some v)
          | None => Raise ValueError
          end
      | None => Return (index l)
      end.
Proof.
  induction objs as [| obj rest IH]; intros l; [reflexivity |].
  simpl. rewrite (body_none self) by assumption.
  unfold passes. destruct (gate self obj) as [k |] eqn:Eg.
  - rewrite validate_gate, Eg. destruct (integer obj); reflexivity.
  - rewrite IH. reflexivity.
Qed.

(** The first token that passes the tests decides: its value if it is made
    of decimal digits, a [ValueError] if not. *)
Lemma extract_none (objs : list str) :
  extract self objs =
    match find (passes self) objs with
    | Some obj =>
        match validate self obj with
        | Some v => Return (Some v)
        | None => Raise ValueError
        end
    | None => Return None
    end.
Proof. exact (loop_none objs locals0). Qed.

Lemma validate_passes (obj : str) (v : Q) :
  validate self obj = Some v -> passes self obj = true.
Proof.
  rewrite validate_gate. unfold passes.
  destruct (integer obj); [| discriminate].
  destruct (gate self obj); [reflexivity | discriminate].
Qed.


End NoKeyword.

(** ** Dispatch on the position *)

Section Dispatch.
Context {U : UnicodeData}.

Lemma gate_config (self self' : Gvision) (obj : str) :
  _expected_digits self = _expected_digits self' ->
  _decimals self = _decimals self' ->
  gate self obj = gate self' obj.
Proof. intros He Hd. unfold gate. rewrite He, Hd. reflexivity. Qed.

Lemma validate_config (self self' : Gvision) (obj : str) :
  _expected_digits self = _expected_digits self' ->
  _decimals self = _decimals self' ->
  validate self obj = validate self' obj.
Proof. intros He Hd. unfold validate. rewrite He, Hd. reflexivity. Qed.

Lemma extract_none_config (self self' : Gvision) (objs : list str) :
  pos_is self "after" = false -> pos_is self "before" = false ->
  pos_is self' "after" = false -> pos_is self' "before" = false ->
  _expected_digits self = _expected_digits self' ->
  _decimals self = _decimals self' ->
  extract self objs = extract self' objs.
Proof.
  intros Ha Hb Ha' Hb' He Hd.
  rewrite (extract_none self Ha Hb), (extract_none self' Ha' Hb').
  induction objs as [| obj rest IH]; [reflexivity |].
  simpl. unfold passes at 1 3. rewrite (gate_config self self' obj He Hd).
  destruct (gate self' obj); [| exact IH].
  rewrite (validate_config self self' obj He Hd). reflexivity.
Qed.

Lemma pos_is_init (keyword keyword_pos : option str) (e d : Z) (s : string) :
  keyword_pos <> Some (lit s) ->
  pos_is (init keyword keyword_pos e d) s = false.
Proof.
  intros H. unfold pos_is, init. simpl.
  destruct keyword_pos as [p |]; [| reflexivity].
  destruct (truthy p); [| reflexivity].
  destruct (str_eqb p (lit s)) eqn:E; [| reflexivity].
  apply str_eqb_eq in E. subst p. contradiction.
Qed.

Lemma body_clear_state (self : Gvision) (l : locals) (obj : str) :
  body (clear_state self) l obj = body self l obj.
Proof. reflexivity. Qed.

Lemma extract_clear_state (self : Gvision) (objs : list str) :
  extract (clear_state self) objs = extract self objs.
Proof.
  unfold extract. generalize locals0.
  induction objs as [| obj rest IH]; intros l; [reflexivity |].
  simpl. rewrite body_clear_state.
  destruct (body self l obj); try reflexivity. apply IH.
Qed.

Lemma process_image_cases (self : Gvision) (objects : list str) (now : string) :
  process_image self objects now =
    match extract self objects with
    | Raise e => (clear_state self, Some e)
    | Return i =>
        if not_index i then (clear_state self, None)
        else (publish (clear_state self) i now, None)
    end.
Proof.
  unfold process_image. rewrite extract_clear_state.
  destruct objects as [| obj rest]; [reflexivity |].
  replace (negb (0 <? len (obj :: rest))) with false; [reflexivity |].
  symmetry. apply negb_false_iff. apply Z.ltb_lt. unfold len. simpl. lia.
Qed.

End Dispatch.

(** C8: a keyword position other than the lowercase strings "after" and
    "before" (another case, another word, none at all) gives, whatever the
    keyword, the scan of the sensor with no keyword and no position, on
    every list of annotations; the state and the exception the call ends
    with are the same as well. *)
Theorem other_position_is_no_keyword {U : UnicodeData}
    (keyword keyword_pos : option str) (expected_digits decimals : Z)
    (objs : list str) (now : string) :
  keyword_pos <> Some (lit "after") ->
  keyword_pos <> Some (lit "before") ->
  let self := init keyword keyword_pos expected_digits decimals in
  let plain := init None None expected_digits decimals in
  extract self objs = extract plain objs
  /\ _state (fst (process_image self objs now)) =
     _state (fst (process_image plain objs now))
  /\ snd (process_image self objs now) = snd (process_image plain objs now).
Proof.
  intros Ha Hb self plain.
  assert (He : extract self objs = extract plain objs).
  { apply extract_none_config; try reflexivity;
      apply pos_is_init; try assumption; discriminate. }
  split; [exact He |].
  rewrite !process_image_cases, He.
  destruct (extract plain objs) as [i | e]; [| split; reflexivity].
  destruct (not_index i); split; reflexivity.
Qed.

(** C9: the call clears the state first; it ends with the state absent and
    the time of the last detection untouched when the scan finds nothing,
    finds a value that is zero, or raises, and only a scan that finds a
    value other than zero sets the state to it and the time of the last
    detection to now, whatever the state was before. *)
Theorem process_image_state {U : UnicodeData}
    (self : Gvision) (objects : list str) (now : string) :
  let self' := fst (process_image self objects now) in
  match extract self objects with
  | Return (Some v) =>
      if Qeq_bool v 0
      then _state self' = None /\ _last_detection self' = _last_detection self
      else _state self' = Some v /\ _last_detection self' = Some now
  | _ => _state self' = None /\ _last_detection self' = _last_detection self
  end.
Proof.
  intros self'. subst self'. rewrite process_image_cases.
  destruct (extract self objects) as [[v |] | e]; simpl;
    [| split; reflexivity | split; reflexivity].
  destruct (Qeq_bool v 0); split; reflexivity.
Qed.

(** ** Zero readings and numeric texts that [float] refuses *)

Section Outcomes.
Context {U : UnicodeData}.

Lemma extract_none_head (self : Gvision) (obj : str) (rest : list str) (v : Q) :
  pos_is self "after" = false ->
  pos_is self "before" = false ->
  validate self obj = Some v ->
  extract self (obj :: rest) = Return (Some v).
Proof.
  intros Ha Hb Hv. rewrite (extract_none self Ha Hb). simpl.
  rewrite (validate_passes self obj v Hv), Hv. reflexivity.
Qed.

Lemma extract_none_head_raises (self : Gvision) (obj : str) (rest : list str) :
  pos_is self "after" = false ->
  pos_is self "before" = false ->
  isnumeric obj = true ->
  integer obj = None ->
  len obj = _expected_digits self ->
  extract self (obj :: rest) = Raise ValueError.
Proof.
  intros Ha Hb Hn Hi Hl. rewrite (extract_none self Ha Hb). simpl.
  assert (Hp : passes self obj = true).
  { unfold passes, gate. rewrite Hn, Hl, Z.eqb_refl. reflexivity. }
  rewrite Hp. unfold validate. rewrite Hi. reflexivity.
Qed.

End Outcomes.

(** C1, as the code has it: with no keyword, the single token "1234",
    expected_digits = 5 and decimals = 2, the token is one digit short and
    is divided by 10^(2-1): the value found is 123.4. *)
Theorem shortfall_example {U : UnicodeData} :
  exists v, extract (init None None 5 2) [lit "1234"] = Return (Some v)
            /\ (v == 1234 # 10)%Q.
Proof.
  exists (div_pow10 1234 1). split; [| reflexivity].
  apply extract_none_head; try reflexivity.
  unfold validate. rewrite integer_ascii by reflexivity. reflexivity.
Qed.

(** C2: whenever the scan finds a value that is zero, the call ends exactly
    as the call on an empty list of annotations does: state absent, time of
    the last detection untouched.  The zero found is not told apart from
    nothing found. *)
Theorem zero_reading_discarded {U : UnicodeData}
    (self : Gvision) (objects : list str) (v : Q) (now : string) :
  extract self objects = Return (Some v) ->
  (v == 0)%Q ->
  process_image self objects now = process_image self [] now.
Proof.
  intros He Hz. rewrite !process_image_cases, He. simpl.
  apply Qeq_bool_iff in Hz. rewrite Hz. reflexivity.
Qed.

(** C6: with no keyword, expected_digits = 1 and decimals = 0, a numeric
    character [c] that is not a decimal digit followed by the token "5":
    the first pure digit string is "5", which validates to 5, but the scan
    ends at [c] with a [ValueError]. *)
Theorem no_keyword_digit_token_not_reached {U : UnicodeData} (c : codepoint) :
  ch_isnumeric c = true ->
  ch_todecimal c = None ->
  let self := init None None 1 0 in
  validate self [c] = None
  /\ validate self (lit "5") = Some (div_pow10 5 0)
  /\ extract self [[c]; lit "5"] = Raise ValueError.
Proof.
  intros Hn Hd self.
  assert (Hi : integer [c] = None) by (simpl; rewrite Hd; reflexivity).
  split; [unfold validate; rewrite Hi; reflexivity |]. split.
  - unfold validate. rewrite integer_ascii by reflexivity. reflexivity.
  - apply extract_none_head_raises; try reflexivity; [| exact Hi].
    simpl. rewrite Hn. reflexivity.
Qed.

(** C7: with no keyword position, a token of the expected length that is
    numeric for [isnumeric] but not made of decimal digits ends the scan,
    and the call, with a [ValueError]. *)
Theorem numeric_text_raises {U : UnicodeData}
    (self : Gvision) (t : str) (rest : list str) (now : string) :
  pos_is self "after" = false ->
  pos_is self "before" = false ->
  isnumeric t = true ->
  integer t = None ->
  len t = _expected_digits self ->
  extract self (t :: rest) = Raise ValueError
  /\ snd (process_image self (t :: rest) now) = Some ValueError.
Proof.
  intros Ha Hb Hn Hi Hl.
  assert (He : extract self (t :: rest) = Raise ValueError)
    by (apply extract_none_head_raises; assumption).
  split; [exact He |]. rewrite process_image_cases, He. reflexivity.
Qed.

(** A keyword position without a keyword is a [TypeError] at the first
    annotation. *)
Lemma position_without_keyword_raises {U : UnicodeData}
    (self : Gvision) (obj : str) (rest : list str) :
  pos_is self "after" = true \/ pos_is self "before" = true ->
  _keyword self = None ->
  extract self (obj :: rest) = Raise TypeError.
Proof.
  intros Hpos Hk. unfold extract. simpl. unfold body. rewrite Hk. simpl.
  destruct (pos_is self "after"); [reflexivity |].
  destruct Hpos as [Hpos | Hpos]; [discriminate |].
  rewrite Hpos. reflexivity.
Qed.

(** With the keyword present, the keyword modes always return. *)
Lemma keyword_modes_return {U : UnicodeData}
    (self : Gvision) (kw : str) (objs : list str) :
  pos_is self "after" = true \/ pos_is self "before" = true ->
  _keyword self = Some kw ->
  exists r, extract self objs = Return r.
Proof.
  intros Hpos Hk. unfold extract.
  destruct (pos_is self "after") eqn:Ha.
  - destruct objs as [| obj rest]; [eexists; reflexivity |].
    simpl. rewrite (body_after_first self kw Ha Hk) by reflexivity.
    destruct (loop_after_from self kw Ha Hk rest obj
                (set_prev_obj locals0 obj) eq_refl eq_refl) as (l' & Hl & _).
    rewrite Hl. eexists; reflexivity.
  - destruct Hpos as [Hpos | Hb]; [discriminate |].
    destruct (loop_before_unset self kw Ha Hb Hk objs locals0 eq_refl eq_refl)
      as (l' & Hl & _).
    rewrite Hl. eexists; reflexivity.
Qed.

(** ** The code on concrete annotations, texts in Latin-1 *)

Section Latin1Examples.
Local Existing Instance latin1.

(** The worked examples of the specification that the code agrees with. *)

Example example_no_keyword :
  extract (init None None 5 2) [lit "12345"]
  = Return (Some (div_pow10 12345 2)).
Proof. reflexivity. Qed.

Example example_after :
  extract (init (Some (lit "kwh")) (Some (lit "after")) 5 2)
    [lit "FULL TEXT"; lit "00123"; lit "kWh"]
  = Return (Some (div_pow10 123 2)).
Proof. reflexivity. Qed.

Example example_before :
  extract meter_before [lit "FULL TEXT"; lit "Meter:"; lit "00123"]
  = Return (Some (div_pow10 123 2)).
Proof. reflexivity. Qed.

Example example_no_match :
  extract (init None None 5 2) [lit "abc"; lit "def"] = Return None.
Proof. reflexivity. Qed.

Example example_malformed :
  extract kwh_after [lit "kwh"; lit "--"; lit "kwh"; lit "12345"]
  = Return None.
Proof. reflexivity. Qed.

(** C1: the value found for the token "1234" with expected_digits = 5 and
    decimals = 2 is not 12.34. *)
Lemma shortfall_example_not_12_34 :
  ~ exists v, extract (init None None 5 2) [lit "1234"] = Return (Some v)
              /\ (v == 1234 # 100)%Q.
Proof.
  intros (v & He & Hv). vm_compute in He. injection He as <-.
  vm_compute in Hv. discriminate.
Qed.






Lemma other_position_is_no_keyword_witness :
  let objs := [lit "x"; lit "kwh"; lit "12345"; lit "kwh"] in
  Some (lit "After") <> Some (lit "after")
  /\ Some (lit "After") <> Some (lit "before")
  /\ extract (init (Some (lit "kWh")) (Some (lit "After")) 5 0) objs
     = extract (init None None 5 0) objs.
Proof.
  intros objs.
  assert (Ha : Some (lit "After") <> Some (lit "after")) by discriminate.
  assert (Hb : Some (lit "After") <> Some (lit "before")) by discriminate.
  split; [exact Ha |]. split; [exact Hb |].
  exact (proj1 (other_position_is_no_keyword (Some (lit "kWh"))
                  (Some (lit "After")) 5 0 objs "now" Ha Hb)).
Defined.

Lemma zero_reading_discarded_witness :
  let self := init None None 5 0 in
  extract self [lit "00000"] = Return (Some (div_pow10 0 0))
  /\ (div_pow10 0 0 == 0)%Q
  /\ process_image self [lit "00000"] "2024-01-01 00:00:00"
     = process_image self [] "2024-01-01 00:00:00".
Proof.
  intros self.
  assert (He : extract self [lit "00000"] = Return (Some (div_pow10 0 0)))
    by reflexivity.
  assert (Hz : (div_pow10 0 0 == 0)%Q) by reflexivity.
  split; [exact He |]. split; [exact Hz |].
  exact (zero_reading_discarded self [lit "00000"] (div_pow10 0 0)
           "2024-01-01 00:00:00" He Hz).
Defined.

Lemma no_keyword_digit_token_not_reached_witness :
  ch_isnumeric one_half = true
  /\ ch_todecimal one_half = None
  /\ extract (init None None 1 0) [[one_half]; lit "5"] = Raise ValueError.
Proof.
  assert (Hn : ch_isnumeric one_half = true) by reflexivity.
  assert (Hd : ch_todecimal one_half = None) by reflexivity.
  split; [exact Hn |]. split; [exact Hd |].
  exact (proj2 (proj2 (no_keyword_digit_token_not_reached one_half Hn Hd))).
Defined.

Lemma numeric_text_raises_witness :
  let self := init None None 1 0 in
  pos_is self "after" = false
  /\ pos_is self "before" = false
  /\ isnumeric [one_half] = true
  /\ integer [one_half] = None
  /\ len [one_half] = _expected_digits self
  /\ extract self [[one_half]] = Raise ValueError.
Proof.
  intros self.
  assert (Ha : pos_is self "after" = false) by reflexivity.
  assert (Hb : pos_is self "before" = false) by reflexivity.
  assert (Hn : isnumeric [one_half] = true) by reflexivity.
  assert (Hi : integer [one_half] = None) by reflexivity.
  assert (Hl : len [one_half] = _expected_digits self) by reflexivity.
  split; [exact Ha |]. split; [exact Hb |]. split; [exact Hn |].
  split; [exact Hi |]. split; [exact Hl |].
  exact (proj1 (numeric_text_raises self [one_half] [] "now" Ha Hb Hn Hi Hl)).
Defined.

End Latin1Examples.

(** * Further properties of the sensor *)

(** ** What a call keeps *)

Section Calls.
Context {U : UnicodeData}.

Lemma body_publish (self : Gvision) (i : option Q) (now : string)
    (l : locals) (obj : str) :
  body (publish self i now) l obj = body self l obj.
Proof. reflexivity. Qed.

Lemma extract_publish (self : Gvision) (i : option Q) (now : string)
    (objs : list str) :
  extract (publish self i now) objs = extract self objs.
Proof.
  unfold extract. generalize locals0.
  induction objs as [| obj rest IH]; intros l; [reflexivity |].
  simpl. rewrite body_publish.
  destruct (body self l obj); try reflexivity. apply IH.
Qed.

Lemma body_continue_index (self : Gvision) (l l' : locals) (obj : str) :
  body self l obj = Continue l' -> index l' = index l.
Proof.
  unfold body.
  repeat match goal with
         | |- context [match ?x with _ => _ end] => destruct x
         end;
    intros H; try discriminate; injection H as <-; reflexivity.
Qed.

Lemma body_break_index (self : Gvision) (l l' : locals) (obj : str) :
  body self l obj = Break l' -> exists v, index l' = Some v.
Proof.
  unfold body.
  repeat match goal with
         | |- context [match ?x with _ => _ end] => destruct x
         end;
    intros H; try discriminate; injection H as <-; eexists; reflexivity.
Qed.

Lemma loop_found_app (self : Gvision) (objs more : list str) :
  forall (l l' : locals) (v : Q),
    index l = None ->
    loop self l objs = Return l' -> index l' = Some v ->
    loop self l (objs ++ more) = Return l'.
Proof.
  induction objs as [| obj rest IH]; intros l l' v Hi Hl Hv; simpl in *.
  - injection Hl as <-. congruence.
  - destruct (body self l obj) as [l1 | l1 | e] eqn:Eb;
      [exact Hl | | discriminate].
    apply (IH l1 l' v); try assumption.
    rewrite (body_continue_index self l l1 obj Eb). exact Hi.
Qed.

Lemma loop_raise_app (self : Gvision) (objs more : list str) :
  forall (l : locals) (e : exn),
    loop self l objs = Raise e -> loop self l (objs ++ more) = Raise e.
Proof.
  induction objs as [| obj rest IH]; intros l e Hl; simpl in *.
  - discriminate.
  - destruct (body self l obj) as [l1 | l1 | e1]; try assumption.
    apply IH. exact Hl.
Qed.

End Calls.

(** X1: a call of [process_image] never changes the keyword, the position,
    the expected digits or the decimals, and a second call with the same
    annotations at the same time gives the sensor and the exception of the
    first. *)
Theorem process_image_idempotent {U : UnicodeData}
    (self : Gvision) (objects : list str) (now : string) :
  let self' := fst (process_image self objects now) in
  (_keyword self' = _keyword self
   /\ _keyword_pos self' = _keyword_pos self
   /\ _expected_digits self' = _expected_digits self
   /\ _decimals self' = _decimals self)
  /\ process_image self' objects now = process_image self objects now.
Proof.
  intros self'. subst self'. rewrite (process_image_cases self).
  destruct (extract self objects) as [i | e] eqn:He.
  - destruct (not_index i) eqn:Hn; simpl.
    + split; [repeat split |].
      rewrite process_image_cases, extract_clear_state, He, Hn. reflexivity.
    + split; [repeat split |].
      rewrite process_image_cases, extract_publish, extract_clear_state,
        He, Hn.
      reflexivity.
  - simpl. split; [repeat split |].
    rewrite process_image_cases, extract_clear_state, He. reflexivity.
Qed.

(** X2: after a call, either the state is absent and the native value and
    its detection time are the ones the sensor had before the call (they
    are not cleared with the state), or the state and the native value are
    the same found value and both detection times are the time of the
    call. *)
Theorem process_image_native_value {U : UnicodeData}
    (self : Gvision) (objects : list str) (now : string) :
  let self' := fst (process_image self objects now) in
  (_state self' = None
   /\ _attr_native_value self' = _attr_native_value self
   /\ _last_detection self' = _last_detection self
   /\ _attr_last_detection self' = _attr_last_detection self)
  \/ (exists v, extract self objects = Return (Some v)
      /\ _state self' = Some v
      /\ _attr_native_value self' = Some v
      /\ _last_detection self' = Some now
      /\ _attr_last_detection self' = Some now).
Proof.
  intros self'. subst self'. rewrite process_image_cases.
  destruct (extract self objects) as [[v |] | e]; simpl;
    [| left; repeat split; reflexivity | left; repeat split; reflexivity].
  destruct (Qeq_bool v 0); [left; repeat split; reflexivity |].
  right. exists v. repeat split; reflexivity.
Qed.

(** X3: the first reading found wins.  Once the scan of a list of
    annotations has found a value, or has raised, annotations that come
    after them do not change the outcome. *)
Theorem found_reading_prefix_stable {U : UnicodeData}
    (self : Gvision) (objs more : list str) :
  match extract self objs with
  | Return (Some v) => extract self (objs ++ more) = Return (Some v)
  | Return None => True
  | Raise e => extract self (objs ++ more) = Raise e
  end.
Proof.
  unfold extract.
  destruct (loop self locals0 objs) as [l' | e] eqn:Hl.
  - destruct (index l') as [v |] eqn:Hv; [| exact I].
    rewrite (loop_found_app self objs more locals0 l' v eq_refl Hl Hv).
    rewrite Hv. reflexivity.
  - rewrite (loop_raise_app self objs more locals0 e Hl). reflexivity.
Qed.

(** ** Readings in the keyword modes *)

Section Readings.
Context {U : UnicodeData}.






(** In the keyword modes the scan returns, and what it returns is absent
    when nothing can be a hit. *)
Lemma keyword_result_absent (self : Gvision) (kw : str) (objs : list str) :
  pos_is self "after" = true \/ pos_is self "before" = true ->
  _keyword self = Some kw ->
  (forall i v, ~ after_hit self kw objs i v) ->
  (forall i v, ~ before_hit self kw objs i v) ->
  extract self objs = Return None.
Proof.
  intros Hpos Hk Hna Hnb. unfold extract.
  destruct (pos_is self "after") eqn:Ha.
  - destruct objs as [| obj rest]; [reflexivity |].
    simpl. rewrite (body_after_first self kw Ha Hk) by reflexivity.
    destruct (loop_after_from self kw Ha Hk rest obj
                (set_prev_obj locals0 obj) eq_refl eq_refl) as (l' & Hl & Hs).
    rewrite Hl. destruct (index l') as [v |]; [| reflexivity].
    destruct Hs as (i & Hhit & _). destruct (Hna i v Hhit).
  - destruct Hpos as [Hpos | Hb]; [discriminate |].
    destruct (loop_before_unset self kw Ha Hb Hk objs locals0 eq_refl eq_refl)
      as (l' & Hl & Hs).
    rewrite Hl. destruct (index l') as [v |]; [| reflexivity].
    destruct Hs as (i & Hhit & _). destruct (Hnb i v Hhit).
Qed.

End Readings.


(** X5: in After and Before mode, with the keyword present, the result is
    absent when no annotation starts with the keyword, and when there are
    fewer than two annotations. *)
Theorem keyword_needed_for_reading {U : UnicodeData}
    (self : Gvision) (kw : str) (objs : list str) :
  pos_is self "after" = true \/ pos_is self "before" = true ->
  _keyword self = Some kw ->
  (forall t, In t objs -> kw_prefixed kw t = false)
  \/ (List.length objs < 2)%nat ->
  extract self objs = Return None.
Proof.
  intros Hpos Hk Hno.
  apply (keyword_result_absent self kw objs Hpos Hk).
  - intros i v (prev & cur & Hprev & Hcur & Hp & _).
    destruct Hno as [Hno | Hlen].
    + rewrite (Hno cur) in Hp; [discriminate |].
      eapply nth_error_In; exact Hcur.
    + assert (S i < List.length objs)%nat
        by (apply nth_error_Some; congruence).
      lia.
  - intros i v (t & Ht & _ & k & kt & Hlt & Hkt & Hp).
    destruct Hno as [Hno | Hlen].
    + rewrite (Hno kt) in Hp; [discriminate |].
      eapply nth_error_In; exact Hkt.
    + assert (i < List.length objs)%nat
        by (apply nth_error_Some; congruence).
      lia.
Qed.

(** X6: a sensor set up with the position "after" or "before" and no
    keyword (none, or the empty string) ends every call on a list of
    annotations that is not empty with a [TypeError] and the state absent;
    on the empty list the call returns. *)
Theorem position_without_keyword {U : UnicodeData}
    (keyword keyword_pos : option str) (expected_digits decimals : Z)
    (obj : str) (rest : list str) (now : string) :
  keyword = None \/ keyword = Some [] ->
  keyword_pos = Some (lit "after") \/ keyword_pos = Some (lit "before") ->
  let self := init keyword keyword_pos expected_digits decimals in
  process_image self (obj :: rest) now = (clear_state self, Some TypeError)
  /\ _state (fst (process_image self (obj :: rest) now)) = None
  /\ process_image self [] now = (clear_state self, None).
Proof.
  intros Hk Hp self.
  assert (Hkey : _keyword self = None)
    by (destruct Hk as [-> | ->]; reflexivity).
  assert (Hpos : pos_is self "after" = true \/ pos_is self "before" = true)
    by (destruct Hp as [-> | ->]; [left | right]; reflexivity).
  assert (He : process_image self (obj :: rest) now
               = (clear_state self, Some TypeError)).
  { rewrite process_image_cases.
    rewrite (position_without_keyword_raises self obj rest Hpos Hkey).
    reflexivity. }
  split; [exact He |]. split; [rewrite He; reflexivity | reflexivity].
Qed.

(** ** Readings with no keyword position *)

Section Raw.
Context {U : UnicodeData}.




End Raw.


(** ** Restart and update *)

(** X9: what the sensor reports survives a restart.  When a fresh sensor
    (no detection time yet) is restored from a stored state that is not
    "unavailable", whose attributes hold the detection time that
    [extra_state_attributes] of the old sensor reports, and from stored
    sensor data holding the old native value, its state and native value are
    the old native value, it reports the attributes the old sensor reported,
    and its configuration is untouched. *)
Theorem restore_round_trip
    (ATTR_LAST_DETECTION STATE_UNAVAILABLE : string)
    (old new : Gvision) (st : string) (attrs : list (string * string)) :
  st <> STATE_UNAVAILABLE ->
  _last_detection new = None ->
  dict_get ATTR_LAST_DETECTION attrs =
    dict_get ATTR_LAST_DETECTION
      (extra_state_attributes ATTR_LAST_DETECTION old) ->
  let self' :=
    async_added_to_hass ATTR_LAST_DETECTION STATE_UNAVAILABLE new
      (Some {| State_state := st; State_attributes := attrs |})
      (Some {| native_value := _attr_native_value old |}) in
  state self' = _attr_native_value old
  /\ _attr_native_value self' = _attr_native_value old
  /\ extra_state_attributes ATTR_LAST_DETECTION self'
     = extra_state_attributes ATTR_LAST_DETECTION old
  /\ (_keyword self' = _keyword new
      /\ _keyword_pos self' = _keyword_pos new
      /\ _expected_digits self' = _expected_digits new
      /\ _decimals self' = _decimals new).
Proof.
  intros Hst Hnew Hattrs self'. subst self'.
  unfold async_added_to_hass. simpl.
  destruct (String.eqb st STATE_UNAVAILABLE) eqn:E;
    [apply String.eqb_eq in E; contradiction |].
  rewrite Hattrs. unfold extra_state_attributes.
  destruct (_last_detection old) as [[| a d] |]; simpl.
  - rewrite Hnew. repeat split; reflexivity.
  - rewrite String.eqb_refl. repeat split; reflexivity.
  - rewrite Hnew. repeat split; reflexivity.
Qed.

(** X10: a call that finds nothing leaves the state absent, but a sensor
    restored afterwards from stored sensor data holding that sensor's native
    value (the stored state not being "unavailable") has for state the
    native value from before the call. *)
Theorem restore_after_no_match {U : UnicodeData}
    (ATTR_LAST_DETECTION STATE_UNAVAILABLE : string)
    (self new : Gvision) (objs : list str) (now : string)
    (ls : State) :
  extract self objs = Return None ->
  State_state ls <> STATE_UNAVAILABLE ->
  let self' := fst (process_image self objs now) in
  state self' = None
  /\ state (async_added_to_hass ATTR_LAST_DETECTION STATE_UNAVAILABLE new
              (Some ls) (Some {| native_value := _attr_native_value self' |}))
     = _attr_native_value self.
Proof.
  intros He Hst self'. subst self'.
  rewrite process_image_cases, He. simpl.
  split; [reflexivity |]. unfold async_added_to_hass.
  destruct (String.eqb (State_state ls) STATE_UNAVAILABLE) eqn:E;
    [apply String.eqb_eq in E; contradiction |].
  simpl. destruct (dict_get ATTR_LAST_DETECTION (State_attributes ls));
    reflexivity.
Qed.

(** X11: after [async_update] the state holds a value only if the camera
    failed and the sensor already had that state (a failed fetch leaves the
    sensor as it was, exception-free), or the image was fetched and the
    scan of its annotations found that value, which is not zero. *)
Theorem async_update_state_provenance {U : UnicodeData} {Image : Type}
    (self : Gvision) (got : option Image) (detect : Image -> list str)
    (now : string) (v : Q) :
  _state (fst (async_update self got detect now)) = Some v ->
  (got = None /\ _state self = Some v
   /\ async_update self got detect now = (self, None))
  \/ (exists image, got = Some image
      /\ extract self (detect image) = Return (Some v)
      /\ Qeq_bool v 0 = false).
Proof.
  destruct got as [image |]; simpl.
  - intros H. right. exists image. split; [reflexivity |].
    rewrite process_image_cases in H.
    destruct (extract self (detect image)) as [[w |] | e]; simpl in H;
      try discriminate.
    destruct (Qeq_bool w 0) eqn:Ew; simpl in H; [discriminate |].
    injection H as ->. split; [reflexivity | exact Ew].
  - intros H. left. repeat split. exact H.
Qed.

(** ** The further properties on concrete annotations *)

Section Latin1Sensor.
Local Existing Instance latin1.


Lemma keyword_needed_for_reading_witness :
  let objs := [lit "12345"; lit "volts"] in
  (pos_is kwh_after "after" = true \/ pos_is kwh_after "before" = true)
  /\ _keyword kwh_after = Some (lit "kwh")
  /\ ((forall t, In t objs -> kw_prefixed (lit "kwh") t = false)
      \/ (List.length objs < 2)%nat)
  /\ extract kwh_after objs = Return None.
Proof.
  intros objs.
  assert (Hp : pos_is kwh_after "after" = true
               \/ pos_is kwh_after "before" = true) by (left; reflexivity).
  assert (Hk : _keyword kwh_after = Some (lit "kwh")) by reflexivity.
  assert (Hno : (forall t, In t objs -> kw_prefixed (lit "kwh") t = false)
                \/ (List.length objs < 2)%nat)
    by (left; intros t [<- | [<- | []]]; reflexivity).
  split; [exact Hp |]. split; [exact Hk |]. split; [exact Hno |].
  exact (keyword_needed_for_reading kwh_after (lit "kwh") objs Hp Hk Hno).
Defined.

Lemma position_without_keyword_witness :
  let self := init None (Some (lit "after")) 5 0 in
  (@None str = None \/ @None str = Some [])
  /\ (Some (lit "after") = Some (lit "after")
      \/ Some (lit "after") = Some (lit "before"))
  /\ process_image self [lit "12345"; lit "kWh"] "now"
     = (clear_state self, Some TypeError).
Proof.
  intros self.
  assert (Hk : @None str = None \/ @None str = Some [])
    by (left; reflexivity).
  assert (Hp : Some (lit "after") = Some (lit "after")
               \/ Some (lit "after") = Some (lit "before"))
    by (left; reflexivity).
  split; [exact Hk |]. split; [exact Hp |].
  exact (proj1 (position_without_keyword None (Some (lit "after")) 5 0
                  (lit "12345") [lit "kWh"] "now" Hk Hp)).
Defined.



Lemma restore_round_trip_witness :
  let attrs := [("unit_of_measurement", "kWh");
                ("last_detection", "2024-01-01 00:00:00")]%string in
  "12345.0"%string <> "unavailable"%string
  /\ _last_detection kwh_after = None
  /\ dict_get "last_detection" attrs
     = dict_get "last_detection"
         (extra_state_attributes "last_detection" kwh_found)
  /\ state (async_added_to_hass "last_detection" "unavailable" kwh_after
              (Some {| State_state := "12345.0"; State_attributes := attrs |})
              (Some {| native_value := _attr_native_value kwh_found |}))
     = Some (div_pow10 12345 0).
Proof.
  intros attrs.
  assert (Hst : "12345.0"%string <> "unavailable"%string) by discriminate.
  assert (Hn : _last_detection kwh_after = None) by reflexivity.
  assert (Hd : dict_get "last_detection" attrs
               = dict_get "last_detection"
                   (extra_state_attributes "last_detection" kwh_found))
    by reflexivity.
  split; [exact Hst |]. split; [exact Hn |]. split; [exact Hd |].
  exact (proj1 (restore_round_trip "last_detection" "unavailable"
                  kwh_found kwh_after "12345.0" attrs Hst Hn Hd)).
Defined.

Lemma restore_after_no_match_witness :
  let ls := {| State_state := "unknown"; State_attributes := [] |} in
  extract kwh_found [lit "no reading"] = Return None
  /\ State_state ls <> "unavailable"%string
  /\ state (fst (process_image kwh_found [lit "no reading"] "later")) = None
  /\ state (async_added_to_hass "last_detection" "unavailable" kwh_after
              (Some ls)
              (Some {| native_value :=
                         _attr_native_value
                           (fst (process_image kwh_found [lit "no reading"]
                                   "later")) |}))
     = Some (div_pow10 12345 0).
Proof.
  intros ls.
  assert (He : extract kwh_found [lit "no reading"] = Return None)
    by reflexivity.
  assert (Hst : State_state ls <> "unavailable"%string) by discriminate.
  split; [exact He |]. split; [exact Hst |].
  exact (restore_after_no_match "last_detection" "unavailable"
           kwh_found kwh_after [lit "no reading"] "later" ls He Hst).
Defined.

Lemma async_update_state_provenance_witness :
  let got : option unit := None in
  let detect := fun _ : unit => @nil str in
  _state (fst (async_update kwh_found got detect "later"))
  = Some (div_pow10 12345 0)
  /\ async_update kwh_found got detect "later" = (kwh_found, None).
Proof.
  intros got detect.
  assert (H : _state (fst (async_update kwh_found got detect "later"))
              = Some (div_pow10 12345 0)) by reflexivity.
  split; [exact H |].
  destruct (async_update_state_provenance kwh_found got detect "later"
              (div_pow10 12345 0) H) as [(_ & _ & Hu) | (image & Hg & _)].
  - exact Hu.
  - discriminate Hg.
Defined.

End Latin1Sensor.
